(** * The Wild Rydes stack definition

    A shallow embedding of [src/wild_rydes_cdk/wild_rydes_cdk_stack.py] and
    [src/app.py].  The constructor [WildRydesCdkStack.__init__] is a straight
    line of calls into the construct library; each call either adds a node to
    the construct tree or raises.  The embedding keeps

    - the construct tree as a rose tree of identified nodes,
    - the local variables of the constructor's frame as an explicit store
      (reading a local that was never assigned raises, as in Python),
    - exceptions as a result type; a raise keeps every mutation made so far.

    The construct library itself is not part of the repository.  Its calls are
    modelled at the level the source uses them: a construct is added under a
    scope with an identifier that must be unused in that scope, and the
    arguments of the call are recorded in the node.  Of the constructs the
    library creates on its own, the model has those that are outputs, roles
    or policies (the endpoint output and the logging role of the API, the
    default policies of the two roles); the resource-level children, the
    deployment and stage of the API, the permissions of the function and the
    asset nodes are left out.  What the run reads beside its arguments, the
    code directory of the function and the release of the library, is an
    explicit environment. *)

From Stdlib Require Import String List Bool Arith Lia.
Import ListNotations.
Open Scope string_scope.
Open Scope list_scope.
Set Warnings "-register-all".

(** ** Data model *)

(** A construct is addressed by the identifiers on the way from [self]. *)
Definition Path := list string.

(** A string argument is a literal, a token (an attribute of another
    construct that is only resolved at deployment) or the library's
    placeholder for no value. *)
Inductive Str :=
| Lit (s : string)
| Tok (target : Path) (attr : string)
| NoValue.

Inductive Effect := ALLOW | DENY.

Record PolicyStatement := mkStatement {
  effect : Effect;
  actions : list string;
  resources : list Str
}.

Inductive AttributeType := BINARY | NUMBER | STRING.

Record Attribute := mkAttribute {
  attr_name : string;
  attr_type : AttributeType
}.

Inductive RemovalPolicy := DESTROY | RETAIN | SNAPSHOT.

Inductive Runtime := NODEJS_12_X.

Inductive EndpointType := EDGE | REGIONAL | PRIVATE.

Inductive PassthroughBehavior := WHEN_NO_MATCH | WHEN_NO_TEMPLATES | NEVER.

(** The dictionaries passed as [integration_responses] and
    [method_responses]. *)
Record IntegrationResponse := mkIntegrationResponse {
  ir_statusCode : string;
  ir_responseParameters : list (string * string)
}.

Record MethodResponse := mkMethodResponse {
  mr_statusCode : string;
  mr_responseParameters : list (string * bool)
}.

Inductive Integration :=
| LambdaIntegration (handler : Path) (proxy : bool)
    (integration_responses : list IntegrationResponse)
| MockIntegration (integration_responses : list IntegrationResponse)
    (passthrough_behavior : PassthroughBehavior)
    (request_templates : list (string * string)).

(** Values given to [add_property_override]: a string or a dictionary. *)
Inductive PropValue :=
| PStr (s : Str)
| PDict (entries : list (string * PropValue)).

(** [ServiceRole] is a role the library creates for a construct of its own;
    it has no physical name.  [TreeMetadata] is the child every application
    is created with. *)
Inductive Resource :=
| App
| TreeMetadata
| Stack
| Repository (repository_name description : string)
| Role (role_name assumed_by : string) (managed_policies : list string)
| ServiceRole (assumed_by : string) (managed_policies : list string)
| AmplifyApp (source_code_provider : Path) (description : string)
    (role : Path) (app_name : string)
| Branch (branch_name : string)
| Policy (roles : list Path) (statements : list PolicyStatement)
| Table (table_name : string) (partition_key : Attribute)
    (removal_policy : RemovalPolicy)
| Function (handler : string) (runtime : Runtime) (code : string)
    (role : Path) (function_name : string)
| RestApi (rest_api_name : string) (endpoint_types : list EndpointType)
| ApiResource (path_part : string)
| Method (http_method : string) (integration : Integration)
    (method_responses : list MethodResponse)
| CfnMethod (overrides : list (string * PropValue))
| CfnAuthorizer (rest_api_id : Str) (name type identity_source
    identity_validation_expression : string) (provider_arns : list string)
| CfnOutput (value : Str).

Inductive Construct :=
| Node (id : string) (res : Resource) (children : list Construct).

Definition node_id (c : Construct) : string :=
  let 'Node i _ _ := c in i.

Definition node_res (c : Construct) : Resource :=
  let 'Node _ r _ := c in r.

Definition node_children (c : Construct) : list Construct :=
  let 'Node _ _ ks := c in ks.

(** ** The construct tree *)

Definition try_find_child (c : Construct) (i : string) : option Construct :=
  find (fun k => node_id k =? i) (node_children c).

Definition has_child (c : Construct) (i : string) : bool :=
  existsb (fun k => node_id k =? i) (node_children c).

Fixpoint get_at (p : Path) (c : Construct) : option Construct :=
  match p with
  | [] => Some c
  | i :: q =>
      match try_find_child c i with
      | Some k => get_at q k
      | None => None
      end
  end.

(** Replace the first element satisfying [sel]. *)
Fixpoint update_first {A} (sel : A -> bool) (f : A -> A) (l : list A) : list A :=
  match l with
  | [] => []
  | x :: r => if sel x then f x :: r else x :: update_first sel f r
  end.

Fixpoint update_at (p : Path) (f : Construct -> Construct) (c : Construct)
  : Construct :=
  match p with
  | [] => f c
  | i :: q =>
      let 'Node j r ks := c in
      Node j r (update_first (fun k => node_id k =? i) (update_at q f) ks)
  end.

(** Children are kept in the order they were added. *)
Definition add_child (k : Construct) (c : Construct) : Construct :=
  let 'Node j r ks := c in Node j r (ks ++ [k]).

Definition set_res (r : Resource) (c : Construct) : Construct :=
  let 'Node j _ ks := c in Node j r ks.

(** Every construct of the tree with its path, parents first. *)
Fixpoint flatten_at (p : Path) (c : Construct) : list (Path * Resource) :=
  let 'Node _ r ks := c in
  (p, r) :: flat_map (fun k => flatten_at (p ++ [node_id k]) k) ks.

(** ** Exceptions, frames and the constructor monad *)

Inductive Exn :=
| UnboundLocalError (name : string)
| DuplicateChild (i : string)
| NoSuchChild (i : string)
| AttributeError (attr : string)
| TypeError (what : string)
| AssetNotFound (path : string).

Inductive result (A : Type) :=
| Ok (a : A)
| Raise (e : Exn).
Arguments Ok {A} a.
Arguments Raise {A} e.

(** What a local variable can hold. *)
Inductive Obj :=
| OConstruct (p : Path)
| OIntegration (i : Integration).

Record Frame := mkFrame {
  graph : Construct;
  locals : list (string * Obj)
}.

Definition M (A : Type) := Frame -> Frame * result A.

Definition ret {A} (a : A) : M A := fun s => (s, Ok a).

Definition raise {A} (e : Exn) : M A := fun s => (s, Raise e).

Definition bind {A B} (m : M A) (k : A -> M B) : M B :=
  fun s =>
    match m s with
    | (s', Ok a) => k a s'
    | (s', Raise e) => (s', Raise e)
    end.

Declare Scope py_scope.
Delimit Scope py_scope with py.
Notation "x <- m ;; k" := (bind m (fun x => k))
  (at level 61, m at next level, right associativity) : py_scope.
Notation "m ;; k" := (bind m (fun _ => k))
  (at level 61, right associativity) : py_scope.
Open Scope py_scope.

Fixpoint lookup_local (x : string) (l : list (string * Obj)) : option Obj :=
  match l with
  | [] => None
  | (y, o) :: r => if y =? x then Some o else lookup_local x r
  end.

Fixpoint assign_local (x : string) (o : Obj) (l : list (string * Obj))
  : list (string * Obj) :=
  match l with
  | [] => [(x, o)]
  | (y, o') :: r =>
      if y =? x then (y, o) :: r else (y, o') :: assign_local x o r
  end.

(** Reading a local: a name the frame has not bound yet raises. *)
Definition load (x : string) : M Obj :=
  fun s =>
    match lookup_local x (locals s) with
    | Some o => (s, Ok o)
    | None => (s, Raise (UnboundLocalError x))
    end.

Definition store (x : string) (o : Obj) : M unit :=
  fun s => (mkFrame (graph s) (assign_local x o (locals s)), Ok tt).

(** The assignment statement [x = e]: [e] is evaluated first. *)
Notation "x ::= e" := (bind e (store x)) (at level 60) : py_scope.

Definition as_construct (o : Obj) : M Path :=
  match o with
  | OConstruct p => ret p
  | OIntegration _ => raise (TypeError "construct")
  end.

Definition as_integration (o : Obj) : M Integration :=
  match o with
  | OIntegration i => ret i
  | OConstruct _ => raise (TypeError "integration")
  end.

Definition load_construct (x : string) : M Path :=
  o <- load x ;; as_construct o.

Definition load_integration (x : string) : M Integration :=
  o <- load x ;; as_integration o.

Definition read_at (p : Path) : M Construct :=
  fun s =>
    match get_at p (graph s) with
    | Some c => (s, Ok c)
    | None => (s, Raise (NoSuchChild (last p "")))
    end.

Definition modify_at (p : Path) (f : Construct -> Construct) : M unit :=
  fun s => (mkFrame (update_at p f (graph s)) (locals s), Ok tt).

(** The base construct initialiser: [Construct(scope, id)].  The identifier
    must be unused among the children of [scope]. *)
Definition new_construct (scope : Path) (i : string) (r : Resource) : M Path :=
  parent <- read_at scope ;;
  if has_child parent i then raise (DuplicateChild i)
  else modify_at scope (add_child (Node i r [])) ;; ret (scope ++ [i]).

(** [node.find_child(id)] raises when there is no such child. *)
Definition find_child (p : Path) (i : string) : M Path :=
  c <- read_at p ;;
  match try_find_child c i with
  | Some _ => ret (p ++ [i])
  | None => raise (NoSuchChild i)
  end.

(** ** The environment of a run *)

(** What a run of the constructor reads beside its arguments.
    [asset_found] tells whether a path, taken from the working directory,
    names an existing file or directory.  [grants_describe_table] tells
    whether the installed release of the library is one in which a write
    grant on a table also allows [dynamodb:DescribeTable]; the last
    releases of the library do, earlier ones do not, and the repository
    pins no release. *)
Record Environment := mkEnvironment {
  asset_found : string -> bool;
  grants_describe_table : bool
}.

(** The layout the repository is written for, the code directory of the
    function in the working directory, with the last release of the
    library. *)
Definition default_environment : Environment :=
  mkEnvironment (String.eqb "request_unicorn") true.



(** ** The calls of the construct library used by the stack *)

(** Attributes that evaluate to deployment-time tokens; only the ones the
    source reads are listed per resource type. *)
Definition token_attributes (r : Resource) : list string :=
  match r with
  | Repository _ _ => ["repository_arn"; "repository_clone_url_http"]
  | AmplifyApp _ _ _ _ => ["default_domain"]
  | Table _ _ _ => ["table_arn"]
  | RestApi _ _ => ["rest_api_id"; "url"]
  | CfnAuthorizer _ _ _ _ _ _ => ["logical_id"]
  | _ => []
  end.

Definition getattr (p : Path) (a : string) : M Str :=
  c <- read_at p ;;
  if existsb (String.eqb a) (token_attributes (node_res c))
  then ret (Tok p a)
  else raise (AttributeError a).

Definition construct (scope : Path) (i : string) (r : Resource) : M Obj :=
  p <- new_construct scope i r ;; ret (OConstruct p).

Definition codecommit_Repository (scope : Path) (i : string)
    (repository_name description : string) : M Obj :=
  construct scope i (Repository repository_name description).

Definition iam_ServicePrincipal (service : string) : string := service.

Definition from_aws_managed_policy_name (n : string) : string := n.

Definition iam_Role (scope : Path) (i : string) (role_name assumed_by : string)
    (managed_policies : list string) : M Obj :=
  construct scope i (Role role_name assumed_by managed_policies).

Definition add_statement (st : PolicyStatement) (c : Construct) : Construct :=
  match node_res c with
  | Policy rs sts => set_res (Policy rs (sts ++ [st])) c
  | _ => c
  end.

(** A statement granted to a role lands in the role's default policy, which
    is created under the role on first use. *)
Definition add_to_principal_policy (role : Path) (st : PolicyStatement)
  : M unit :=
  r <- read_at role ;;
  match node_res r with
  | Role _ _ _ | ServiceRole _ _ =>
      (if has_child r "DefaultPolicy" then ret tt
       else new_construct role "DefaultPolicy" (Policy [role] []) ;; ret tt) ;;
      modify_at (role ++ ["DefaultPolicy"]) (add_statement st)
  | _ => raise (TypeError "grantee")
  end.

(** [repository.grant_pull(grantee)] *)
Definition grant_pull (repository grantee : Path) : M unit :=
  arn <- getattr repository "repository_arn" ;;
  add_to_principal_policy grantee
    (mkStatement ALLOW ["codecommit:GitPull"] [arn]).

(** The source code provider of a hosting app is given by its repository.
    When the app binds it, the provider grants the pull of that repository
    to the role of the app. *)
Definition amplify_CodeCommitSourceCodeProvider (repository : Path) : Path :=
  repository.

Definition bind_source_code_provider (provider grantee : Path) : M unit :=
  grant_pull provider grantee.

(** [amplify.App(scope, id, source_code_provider=..., role=..., ...)]: the
    app becomes a child of the scope, then binds its provider. *)
Definition amplify_App (scope : Path) (i : string)
    (source_code_provider : Path) (description : string) (role : Path)
    (app_name : string) : M Obj :=
  p <- new_construct scope i
         (AmplifyApp source_code_provider description role app_name) ;;
  bind_source_code_provider source_code_provider role ;;
  ret (OConstruct p).

(** [app.add_branch(id)]: the branch is a child of the app, named by [id]. *)
Definition add_branch (app : Path) (i : string) : M Obj :=
  construct app i (Branch i).

Definition iam_Policy (scope : Path) (i : string) (roles : list Path)
    (statements : list PolicyStatement) : M Obj :=
  construct scope i (Policy roles statements).

Definition ddb_Table (scope : Path) (i : string) (table_name : string)
    (partition_key : Attribute) (removal_policy : RemovalPolicy) : M Obj :=
  construct scope i (Table table_name partition_key removal_policy).

(** The item-writing actions of the table service. *)
Definition WRITE_DATA_ACTIONS : list string :=
  ["dynamodb:BatchWriteItem"; "dynamodb:PutItem"; "dynamodb:UpdateItem";
   "dynamodb:DeleteItem"].

Definition DESCRIBE_TABLE : string := "dynamodb:DescribeTable".

(** What a write grant allows, by release of the library. *)
Definition write_grant_actions (env : Environment) : list string :=
  if grants_describe_table env
  then WRITE_DATA_ACTIONS ++ [DESCRIBE_TABLE]
  else WRITE_DATA_ACTIONS.

(** [table.grant_write_data(grantee)]: one statement on the table and on
    its indexes; a table without indexes, as here, has the placeholder for
    no value in the second place. *)
Definition grant_write_data (env : Environment) (table grantee : Path)
  : M unit :=
  arn <- getattr table "table_arn" ;;
  add_to_principal_policy grantee
    (mkStatement ALLOW (write_grant_actions env) [arn; NoValue]).

Definition lambda_AssetCode (path : string) : string := path.

(** [_lambda.Function(scope, id, ...)]: the function becomes a child of the
    scope, then binds its code, which is looked up from the working
    directory and must be there. *)
Definition lambda_Function (env : Environment) (scope : Path) (i : string)
    (handler : string) (runtime : Runtime) (code : string) (role : Path)
    (function_name : string) : M Obj :=
  p <- new_construct scope i
         (Function handler runtime code role function_name) ;;
  if asset_found env code then ret (OConstruct p)
  else raise (AssetNotFound code).

(** [apigw.RestApi(scope, id, ...)] with the defaults of the library: the
    API comes with a role for its logging, with an output [Endpoint] for its
    invocation URL, and with its root resource, the child [Default]. *)
Definition apigw_RestApi (scope : Path) (i : string) (rest_api_name : string)
    (endpoint_types : list EndpointType) : M Obj :=
  p <- new_construct scope i (RestApi rest_api_name endpoint_types) ;;
  new_construct p "CloudWatchRole"
    (ServiceRole "apigateway.amazonaws.com"
       ["service-role/AmazonAPIGatewayPushToCloudWatchLogs"]) ;;
  url <- getattr p "url" ;;
  new_construct p "Endpoint" (CfnOutput url) ;;
  new_construct p "Default" (ApiResource "/") ;;
  ret (OConstruct p).

(** [api.root] *)
Definition root (api : Path) : M Path := find_child api "Default".

(** [resource.add_resource(path_part)] *)
Definition add_resource (parent : Path) (path_part : string) : M Obj :=
  construct parent path_part (ApiResource path_part).

(** [resource.add_method(http_method, integration, method_responses=...)]:
    the method is the child named by the verb; the synthesized method
    resource is its child [Resource]. *)
Definition add_method (resource : Path) (http_method : string)
    (integration : Integration) (method_responses : list MethodResponse)
  : M Obj :=
  m <- new_construct resource http_method
         (Method http_method integration method_responses) ;;
  new_construct m "Resource" (CfnMethod []) ;;
  ret (OConstruct m).

Definition apigw_CfnAuthorizer (scope : Path) (i : string) (rest_api_id : Str)
    (name type identity_source identity_validation_expression : string)
    (provider_arns : list string) : M Obj :=
  construct scope i
    (CfnAuthorizer rest_api_id name type identity_source
       identity_validation_expression provider_arns).

Fixpoint set_override (key : string) (v : PropValue)
    (l : list (string * PropValue)) : list (string * PropValue) :=
  match l with
  | [] => [(key, v)]
  | (k, w) :: r =>
      if k =? key then (k, v) :: r else (k, w) :: set_override key v r
  end.

(** [cfn_resource.add_property_override(key, value)] *)
Definition add_property_override (p : Path) (key : string) (v : PropValue)
  : M unit :=
  c <- read_at p ;;
  match node_res c with
  | CfnMethod ov => modify_at p (set_res (CfnMethod (set_override key v ov)))
  | _ => raise (AttributeError "add_property_override")
  end.

Definition core_CfnOutput (scope : Path) (i : string) (value : Str) : M Obj :=
  construct scope i (CfnOutput value).

(** ** The stack constructor *)

(** Inside the constructor, paths start at the stack itself. *)
Definition self : Path := [].

Definition ALLOW_ORIGIN : string :=
  "method.response.header.Access-Control-Allow-Origin".
Definition ALLOW_HEADERS : string :=
  "method.response.header.Access-Control-Allow-Headers".
Definition ALLOW_METHODS : string :=
  "method.response.header.Access-Control-Allow-Methods".

(** The request template of the mock integration: the JSON text
    [{ statusCode : 200 }] with its key in double quotes. *)
Definition dquote : string := String (Ascii.ascii_of_nat 34) EmptyString.
Definition STATUS_200_TEMPLATE : string :=
  ("{" ++ dquote ++ "statusCode" ++ dquote ++ ":200}")%string.

(** The statements of [WildRydesCdkStack.__init__] after the call of the base
    initialiser, in source order, run in an environment.  In a call, the
    arguments are evaluated before the call is made, so every local read by
    an argument is loaded before the construct is added. *)
Definition init_body (env : Environment) : M unit :=
  "amplify_repo" ::=
    codecommit_Repository self "amplify-wild-rydes-repo"
      "amplify-wild-rydes"
      "Repo for the Wild Rydes static site for Amplify" ;;
  "app_repo" ::=
    codecommit_Repository self "app-serverless-workshop-repo"
      "app-wild-rydes-serverless-workshop"
      "Repo for project from webapp.serverlessworkshops.io/staticwebhosting/overview/" ;;
  "amplify_role" ::=
    iam_Role self "amplify-wild-rydes-role"
      "amplify-wild-rydes-role"
      (iam_ServicePrincipal "amplify.amazonaws.com") [] ;;
  "amplify_static_site" ::=
    (repo <- load_construct "amplify_repo" ;;
     role <- load_construct "amplify_role" ;;
     amplify_App self "amplify-wild-rydes-site"
       (amplify_CodeCommitSourceCodeProvider repo)
       "Wild Rydes Amplify Static Site" role "wild-rydes-site") ;;
  "master" ::=
    (site <- load_construct "amplify_static_site" ;;
     add_branch site "master") ;;
  "amplify_policy" ::=
    (role <- load_construct "amplify_role" ;;
     repo <- load_construct "amplify_repo" ;;
     arn <- getattr repo "repository_arn" ;;
     iam_Policy self "amplify-wild-rydes-policy" [role]
       [ mkStatement ALLOW ["codecommit:GitPull"] [arn];
         mkStatement ALLOW
           ["amplify:GetApp"; "amplify:CreateBackendEnvironment";
            "cloudformation:*"; "cognito:*"; "lambda:*"; "s3:*"; "iam:*"]
           [Lit "*"] ]) ;;
  "rides_table" ::=
    ddb_Table self "Table" "Rides" (mkAttribute "RideId" STRING) DESTROY ;;
  "request_unicorn_role" ::=
    iam_Role self "RequestUnicornRole"
      "wild-rydes-lambda-role"
      (iam_ServicePrincipal "lambda.amazonaws.com")
      [from_aws_managed_policy_name
         "service-role/AWSLambdaBasicExecutionRole"] ;;
  (table <- load_construct "rides_table" ;;
   role <- load_construct "request_unicorn_role" ;;
   grant_write_data env table role) ;;
  "request_unicorn" ::=
    (role <- load_construct "request_unicorn_role" ;;
     lambda_Function env self "request-unicorn" "requestUnicorn.handler"
       NODEJS_12_X (lambda_AssetCode "request_unicorn") role
       "request-unicorn-wild-rydes") ;;
  "ride_api_gw" ::=
    apigw_RestApi self "wild-rydes-apigw" "WildRydes" [REGIONAL] ;;
  "ride_api_gw_lambda_integration" ::=
    (fn <- load_construct "request_unicorn" ;;
     ret (OIntegration
            (LambdaIntegration fn true
               [mkIntegrationResponse "200" [(ALLOW_ORIGIN, "'*'")]]))) ;;
  "post_ride_resource" ::=
    (api <- load_construct "ride_api_gw" ;;
     r <- root api ;;
     add_resource r "ride") ;;
  "post_ride_resource_method" ::=
    (res <- load_construct "post_ride_resource" ;;
     integ <- load_integration "ride_api_gw_lambda_integration" ;;
     add_method res "POST" integ
       [mkMethodResponse "200" [(ALLOW_ORIGIN, true)]]) ;;
  "ride_api_gw_authorizer" ::=
    (api <- load_construct "ride_api_gw" ;;
     api_id <- getattr api "rest_api_id" ;;
     apigw_CfnAuthorizer self "wild-rydes-apigw-authorizer" api_id
       "wild-rydes-apigw-authorizer"
       "COGNITO_USER_POOLS"
       "method.request.header.name.Authorization"
       "Bearer (.*)"
       ["arn:aws:cognito-idp:us-east-1:<ACCOUNT_ID>:userpool/<USER_POOL_ID>"]) ;;
  "post_ride_resource_fix" ::=
    (m <- load_construct "post_ride_resource_method" ;;
     c <- find_child m "Resource" ;;
     ret (OConstruct c)) ;;
  (fix_ <- load_construct "post_ride_resource_fix" ;;
   add_property_override fix_ "AuthorizationType"
     (PStr (Lit "COGNITO_USER_POOLS"))) ;;
  (fix_ <- load_construct "post_ride_resource_fix" ;;
   auth <- load_construct "ride_api_gw_authorizer" ;;
   logical_id <- getattr auth "logical_id" ;;
   add_property_override fix_ "AuthorizerId"
     (PDict [("Ref", PStr logical_id)])) ;;
  (res <- load_construct "post_ride_resource" ;;
   add_method res "OPTIONS"
     (MockIntegration
        [mkIntegrationResponse "200"
           [ (ALLOW_HEADERS,
              "'Content-Type,X-Amz-Date,Authorization,X-Api-Key,X-Amz-Security-Token'");
             (ALLOW_ORIGIN, "'*'");
             (ALLOW_METHODS, "'POST,OPTIONS'") ]]
        WHEN_NO_MATCH
        [("application/json", STATUS_200_TEMPLATE)])
     [mkMethodResponse "200"
        [ (ALLOW_HEADERS, true); (ALLOW_METHODS, true);
          (ALLOW_ORIGIN, true) ]]) ;;
  "amplify_repo_url" ::=
    (repo <- load_construct "amplify_repo" ;;
     v <- getattr repo "repository_clone_url_http" ;;
     core_CfnOutput self "amplify-repo-url" v) ;;
  "app_repo_url" ::=
    (repo <- load_construct "app_repo" ;;
     v <- getattr repo "repository_clone_url_http" ;;
     core_CfnOutput self "app-repo-url" v) ;;
  "amplify_default_domain" ::=
    (site <- load_construct "amplify_static_site" ;;
     v <- getattr site "default_domain" ;;
     core_CfnOutput self "amplify-default-domain" v) ;;
  "request_unicorn_apigw" ::=
    (out <- load_construct "request_unicorn_apigw" ;;
     v <- getattr out "url" ;;
     core_CfnOutput self "request-unicorn-apigw" v).

(** What the constructor needs of the base initialiser
    [core.Stack.__init__(scope, construct_id)], which is not in the
    repository: the call either raises, leaving the scope in some state, or
    returns after making a new stack the last child of the scope.  In the
    second case the result holds the scope as it was and the new stack. *)
Definition BaseInitialiser : Type :=
  Construct -> string -> Construct * result Construct.

(** [WildRydesCdkStack.__init__] over a base initialiser and an
    environment.  After the base initialiser the stack is the last child of
    the scope; the body changes the stack only, so the scope seen after the
    call, whether the call returned or raised, is the scope with the stack
    in its last state. *)
Definition construct_with (base : BaseInitialiser) (env : Environment)
    (scope : Construct) (construct_id : string) : Construct * result unit :=
  match base scope construct_id with
  | (scope', Raise e) => (scope', Raise e)
  | (scope', Ok stack) =>
      let (fr, r) := init_body env (mkFrame stack []) in
      (add_child (graph fr) scope', r)
  end.

(** The base initialiser for identifiers the library takes as they are:
    the new stack becomes a child of [scope], which is refused when the
    identifier is already used there.  The other checks of the library (an
    empty identifier, the form of the stack name, the separator it replaces
    in an identifier) are not in this definition; the entry point passes no
    keyword arguments, and none are modelled. *)
Definition core_Stack (scope : Construct) (construct_id : string)
  : result Construct :=
  if has_child scope construct_id
  then Raise (DuplicateChild construct_id)
  else Ok (Node construct_id Stack []).

Definition core_Stack_init : BaseInitialiser :=
  fun scope construct_id => (scope, core_Stack scope construct_id).

(** [WildRydesCdkStack(scope, construct_id)] in the default environment. *)
Definition WildRydesCdkStack (scope : Construct) (construct_id : string)
  : Construct * result unit :=
  construct_with core_Stack_init default_environment scope construct_id.

(** The stack a call leaves in the scope under its identifier. *)
Definition constructed (scope : Construct) (construct_id : string)
  : option Construct :=
  try_find_child (fst (WildRydesCdkStack scope construct_id)) construct_id.

(** ** Synthesis and the entry point *)

Definition Template := list (Path * Resource).

(** The synthesized form of a stack: its constructs, by path. *)
Definition template (stack : Construct) : Template := flatten_at [] stack.

Definition is_stack (c : Construct) : bool :=
  match node_res c with Stack => true | _ => false end.

(** [app.synth()]: one template per stack of the application. *)
Definition synth (app : Construct) : list (string * Template) :=
  map (fun k => (node_id k, template k)) (filter is_stack (node_children app)).

(** [core.App()]: a new application has the child [Tree]. *)
Definition core_App : Construct := Node "" App [Node "Tree" TreeMetadata []].

(** [app.py]: build the stack in a new application, then synthesize. *)
Definition main : Construct * result (list (string * Template)) :=
  let app := core_App in
  match WildRydesCdkStack app "wild-rydes-cdk" with
  | (app', Ok _) => (app', Ok (synth app'))
  | (app', Raise e) => (app', Raise e)
  end.

(** ** Observations on a template *)

Definition outputs (t : Template) : list (string * Str) :=
  flat_map (fun e => match snd e with
                     | CfnOutput v => [(last (fst e) "", v)]
                     | _ => []
                     end) t.

Definition is_table (r : Resource) : bool :=
  match r with Table _ _ _ => true | _ => false end.

Definition tables (t : Template) : Template :=
  filter (fun e => is_table (snd e)) t.

Definition is_authorizer (r : Resource) : bool :=
  match r with CfnAuthorizer _ _ _ _ _ _ => true | _ => false end.

Definition authorizers (t : Template) : Template :=
  filter (fun e => is_authorizer (snd e)) t.

Definition is_role (r : Resource) : bool :=
  match r with Role _ _ _ | ServiceRole _ _ => true | _ => false end.

Definition roles_of (t : Template) : Template :=
  filter (fun e => is_role (snd e)) t.

(** Physical names, per resource type. *)
Definition repository_names (t : Template) : list string :=
  flat_map (fun e => match snd e with Repository n _ => [n] | _ => [] end) t.

Definition role_names (t : Template) : list string :=
  flat_map (fun e => match snd e with Role n _ _ => [n] | _ => [] end) t.

Definition table_names (t : Template) : list string :=
  flat_map (fun e => match snd e with Table n _ _ => [n] | _ => [] end) t.

Definition function_names (t : Template) : list string :=
  flat_map (fun e => match snd e with
                     | Function _ _ _ _ n => [n]
                     | _ => []
                     end) t.

Record PhysicalNames := mkNames {
  pn_repositories : list string;
  pn_roles : list string;
  pn_tables : list string;
  pn_functions : list string
}.

Definition physical_names (t : Template) : PhysicalNames :=
  mkNames (repository_names t) (role_names t) (table_names t)
    (function_names t).

(** Methods carried by an API resource: its children that are methods. *)
Definition methods_of (c : Construct) : list Construct :=
  filter (fun k => match node_res k with Method _ _ _ => true | _ => false end)
    (node_children c).

(** The functions an integration invokes. *)
Definition integration_functions (i : Integration) : list Path :=
  match i with
  | LambdaIntegration fn _ _ => [fn]
  | MockIntegration _ _ _ => []
  end.

Definition lookup_override (key : string) (r : Resource) : option PropValue :=
  match r with
  | CfnMethod ov =>
      option_map snd (find (fun e => fst e =? key) ov)
  | _ => None
  end.

(** *** Grants on a table *)

Fixpoint path_eqb (p q : Path) : bool :=
  match p, q with
  | [], [] => true
  | a :: p', b :: q' => (a =? b) && path_eqb p' q'
  | _, _ => false
  end.

Definition is_table_action (a : string) : bool :=
  (a =? "*") || prefix "dynamodb:" a.

Definition covers_table (table : Path) (r : Str) : bool :=
  match r with
  | Lit s => s =? "*"
  | Tok p a => path_eqb p table && (a =? "table_arn")
  | NoValue => false
  end.

(** An allowing statement with a table action on a resource covering the
    table. *)
Definition grants_on (table : Path) (st : PolicyStatement) : bool :=
  match effect st with
  | ALLOW =>
      existsb is_table_action (actions st)
      && existsb (covers_table table) (resources st)
  | DENY => false
  end.

Definition writes (st : PolicyStatement) : bool :=
  existsb (String.eqb "dynamodb:PutItem") (actions st).

(** Every (role, statement) pair of the template in which the statement is
    a grant on the table and the role is attached to the statement's
    policy. *)
Definition table_grants (table : Path) (t : Template)
  : list (Path * PolicyStatement) :=
  flat_map (fun e =>
    match snd e with
    | Policy rs sts =>
        flat_map (fun role =>
          map (fun st => (role, st)) (filter (grants_on table) sts)) rs
    | _ => []
    end) t.

Definition is_substring (needle hay : string) : bool :=
  match index 0 needle hay with Some _ => true | None => false end.

(** *** Possible grants on a table

    A second detector, which errs on the side of finding a grant: an action
    counts unless it names a service other than the table service outright,
    a literal resource counts whatever it says, and so does every token of
    the table. *)

Definition service_of (a : string) : option string :=
  match index 0 ":" a with
  | Some n => Some (substring 0 n a)
  | None => None
  end.

Definition has_wildcard (s : string) : bool :=
  is_substring "*" s || is_substring "?" s.

Definition lower_ascii (c : Ascii.ascii) : Ascii.ascii :=
  let n := Ascii.nat_of_ascii c in
  if (65 <=? n)%nat && (n <=? 90)%nat then Ascii.ascii_of_nat (n + 32) else c.

Fixpoint lower (s : string) : string :=
  match s with
  | EmptyString => EmptyString
  | String c r => String (lower_ascii c) (lower r)
  end.

Definition may_be_table_action (a : string) : bool :=
  match service_of a with
  | Some service => has_wildcard service || (lower service =? "dynamodb")
  | None => true
  end.

Definition may_cover_table (table : Path) (r : Str) : bool :=
  match r with
  | Lit _ => true
  | Tok p _ => path_eqb p table
  | NoValue => false
  end.

Definition may_grant_on (table : Path) (st : PolicyStatement) : bool :=
  match effect st with
  | ALLOW =>
      existsb may_be_table_action (actions st)
      && existsb (may_cover_table table) (resources st)
  | DENY => false
  end.

Definition possible_table_grants (table : Path) (t : Template)
  : list (Path * PolicyStatement) :=
  flat_map (fun e =>
    match snd e with
    | Policy rs sts =>
        flat_map (fun role =>
          map (fun st => (role, st)) (filter (may_grant_on table) sts)) rs
    | _ => []
    end) t.


(** ** What the frame has not bound

    Used to follow a local variable that no statement assigns. *)

Definition unbound (x : string) (s : Frame) : Prop :=
  lookup_local x (locals s) = None.

(** A computation that binds [x] in no run. *)
Definition keeps_unbound {A} (x : string) (m : M A) : Prop :=
  forall s, unbound x s -> unbound x (fst (m s)).

(** A computation that, started with [x] unbound, has no normal return. *)
Definition raises_while_unbound {A} (x : string) (m : M A) : Prop :=
  forall s, unbound x s -> forall a, snd (m s) <> Ok a.

(** ** Values the statements below refer to *)

Definition amplify_repo_clone_url : Str :=
  Tok ["amplify-wild-rydes-repo"] "repository_clone_url_http".

Definition app_repo_clone_url : Str :=
  Tok ["app-serverless-workshop-repo"] "repository_clone_url_http".

Definition site_default_domain : Str :=
  Tok ["amplify-wild-rydes-site"] "default_domain".

Definition ride_path : Path := ["wild-rydes-apigw"; "Default"; "ride"].

Definition authorizer_path : Path := ["wild-rydes-apigw-authorizer"].

Definition table_path : Path := ["Table"].

Definition compute_role_path : Path := ["RequestUnicornRole"].

Definition function_path : Path := ["request-unicorn"].

Definition PROVIDER_ARN : string :=
  "arn:aws:cognito-idp:us-east-1:<ACCOUNT_ID>:userpool/<USER_POOL_ID>".

Definition the_authorizer : Resource :=
  CfnAuthorizer (Tok ["wild-rydes-apigw"] "rest_api_id")
    "wild-rydes-apigw-authorizer" "COGNITO_USER_POOLS"
    "method.request.header.name.Authorization" "Bearer (.*)" [PROVIDER_ARN].

Definition post_integration : Integration :=
  LambdaIntegration function_path true
    [mkIntegrationResponse "200" [(ALLOW_ORIGIN, "'*'")]].

Definition options_integration : Integration :=
  MockIntegration
    [mkIntegrationResponse "200"
       [ (ALLOW_HEADERS,
          "'Content-Type,X-Amz-Date,Authorization,X-Api-Key,X-Amz-Security-Token'");
         (ALLOW_ORIGIN, "'*'");
         (ALLOW_METHODS, "'POST,OPTIONS'") ]]
    WHEN_NO_MATCH
    [("application/json", STATUS_200_TEMPLATE)].

Definition api_url : Str := Tok ["wild-rydes-apigw"] "url".

(** The write grant as the default environment has it. *)
Definition write_grant : PolicyStatement :=
  mkStatement ALLOW
    ["dynamodb:BatchWriteItem"; "dynamodb:PutItem"; "dynamodb:UpdateItem";
     "dynamodb:DeleteItem"; "dynamodb:DescribeTable"]
    [Tok table_path "table_arn"; NoValue].

Definition FIXED_NAMES : PhysicalNames :=
  mkNames
    ["amplify-wild-rydes"; "app-wild-rydes-serverless-workshop"]
    ["amplify-wild-rydes-role"; "wild-rydes-lambda-role"]
    ["Rides"]
    ["request-unicorn-wild-rydes"].

(** A scope in which the identifier of the entry point is taken. *)
Definition taken_scope : Construct :=
  Node "" App [Node "wild-rydes-cdk" Stack []].

(** ** More observations on a template *)

Definition policies (t : Template)
  : list (Path * list Path * list PolicyStatement) :=
  flat_map (fun e => match snd e with
                     | Policy rs sts => [(fst e, rs, sts)]
                     | _ => []
                     end) t.

Definition all_statements (t : Template) : list PolicyStatement :=
  flat_map (fun e => snd e) (policies t).

(** The synthesized method resources with the overrides put on them. *)
Definition method_overrides (t : Template)
  : list (Path * list (string * PropValue)) :=
  flat_map (fun e => match snd e with
                     | CfnMethod ov => [(fst e, ov)]
                     | _ => []
                     end) t.

Definition integration_responses_of (i : Integration)
  : list IntegrationResponse :=
  match i with
  | LambdaIntegration _ _ irs => irs
  | MockIntegration irs _ _ => irs
  end.

(** The response parameters a method declares for a status code. *)
Definition declared_parameters (mrs : list MethodResponse) (status : string)
  : list string :=
  flat_map (fun mr => if mr_statusCode mr =? status
                      then map fst (mr_responseParameters mr)
                      else []) mrs.

(** Every response parameter set by the integration is declared by the
    method for the same status code. *)
Definition responses_declared (r : Resource) : Prop :=
  match r with
  | Method _ i mrs =>
      forall ir k,
        In ir (integration_responses_of i) ->
        In k (map fst (ir_responseParameters ir)) ->
        In k (declared_parameters mrs (ir_statusCode ir))
  | _ => True
  end.

Definition amplify_apps (t : Template) : Template :=
  filter (fun e => match snd e with AmplifyApp _ _ _ _ => true | _ => false end)
    t.

Definition branches (t : Template) : Template :=
  filter (fun e => match snd e with Branch _ => true | _ => false end) t.

Definition functions (t : Template) : Template :=
  filter (fun e => match snd e with
                   | Function _ _ _ _ _ => true
                   | _ => false
                   end) t.

Definition rest_apis (t : Template) : Template :=
  filter (fun e => match snd e with RestApi _ _ => true | _ => false end) t.

Definition api_resources (t : Template) : Template :=
  filter (fun e => match snd e with ApiResource _ => true | _ => false end) t.

(** * Running the constructor *)

(** The children of the stack when the constructor stops. *)
Definition declared : list Construct :=
  Eval vm_compute in
    node_children
      (graph (fst (init_body default_environment
                     (mkFrame (Node "" Stack []) [])))).

Definition fourth_output_error : Exn :=
  UnboundLocalError "request_unicorn_apigw".

(** The template of the stack at that point. *)
Definition declared_template : Template :=
  Eval vm_compute in template (Node "" Stack declared).

(** The body does not look at the stack's own identifier: whatever it is,
    the same children are declared and the same exception ends the run. *)
Lemma init_body_run (construct_id : string) :
  graph (fst (init_body default_environment
                (mkFrame (Node construct_id Stack []) [])))
    = Node construct_id Stack declared
  /\ snd (init_body default_environment
            (mkFrame (Node construct_id Stack []) []))
    = Raise fourth_output_error.
Proof. split; vm_compute; reflexivity. Qed.

Section ListFacts.
Context {A : Type} (sel : A -> bool).

Lemma find_last_fresh (l : list A) (x : A) :
  existsb sel l = false -> sel x = true -> find sel (l ++ [x]) = Some x.
Proof.
  intros Hl Hx. induction l as [|a l IH]; simpl in *.
  - now rewrite Hx.
  - apply orb_false_iff in Hl as [Ha Hl]. rewrite Ha. now apply IH.
Qed.

Lemma find_app_left (l r : list A) (x : A) :
  find sel l = Some x -> find sel (l ++ r) = Some x.
Proof.
  induction l as [|a l IH]; simpl; [discriminate|].
  destruct (sel a); [trivial | exact IH].
Qed.
End ListFacts.

Lemma run_fresh (scope : Construct) (construct_id : string) :
  has_child scope construct_id = false ->
  WildRydesCdkStack scope construct_id
    = (add_child (Node construct_id Stack declared) scope,
       Raise fourth_output_error).
Proof.
  intros Hfresh.
  unfold WildRydesCdkStack, construct_with, core_Stack_init, core_Stack.
  rewrite Hfresh.
  destruct (init_body_run construct_id) as [Hg Hr].
  destruct (init_body default_environment
              (mkFrame (Node construct_id Stack []) [])) as [fr r].
  simpl in Hg, Hr. now rewrite Hg, Hr.
Qed.

Lemma run_collision (scope : Construct) (construct_id : string) :
  has_child scope construct_id = true ->
  WildRydesCdkStack scope construct_id
    = (scope, Raise (DuplicateChild construct_id)).
Proof.
  intros Hdup.
  unfold WildRydesCdkStack, construct_with, core_Stack_init, core_Stack.
  now rewrite Hdup.
Qed.

Lemma constructed_fresh (scope : Construct) (construct_id : string) :
  has_child scope construct_id = false ->
  constructed scope construct_id = Some (Node construct_id Stack declared).
Proof.
  intros Hfresh. unfold constructed. rewrite (run_fresh _ _ Hfresh).
  destruct scope as [j r ks]. unfold try_find_child. simpl.
  apply find_last_fresh; [exact Hfresh | apply String.eqb_refl].
Qed.

(** Name the stack a call leaves behind, given that the identifier was
    free. *)
Ltac left_stack H :=
  match type of H with
  | has_child ?scope ?i = false =>
      exists (Node i Stack declared); rewrite (constructed_fresh scope i H)
  end.

Lemma template_left (construct_id : string) :
  template (Node construct_id Stack declared) = declared_template.
Proof. reflexivity. Qed.

(** ** The local that is never bound *)

Section Unbound.
Variable x : string.

Lemma keeps_ret {A} (a : A) : keeps_unbound x (ret a).
Proof. intros s Hs. exact Hs. Qed.

Lemma keeps_raise {A} (e : Exn) : keeps_unbound x (@raise A e).
Proof. intros s Hs. exact Hs. Qed.

Lemma keeps_load (y : string) : keeps_unbound x (load y).
Proof.
  intros s Hs. unfold load. now destruct (lookup_local y (locals s)).
Qed.

Lemma keeps_read_at (p : Path) : keeps_unbound x (read_at p).
Proof.
  intros s Hs. unfold read_at. now destruct (get_at p (graph s)).
Qed.

Lemma keeps_modify_at (p : Path) (f : Construct -> Construct) :
  keeps_unbound x (modify_at p f).
Proof. intros s Hs. exact Hs. Qed.

Lemma lookup_assign_other (y : string) (o : Obj) (l : list (string * Obj)) :
  (y =? x) = false ->
  lookup_local x l = None ->
  lookup_local x (assign_local y o l) = None.
Proof.
  intros Hy. induction l as [|[z o'] l IH]; simpl.
  - now rewrite Hy.
  - destruct (z =? x) eqn:Hz; [discriminate|]. intros Hl.
    destruct (z =? y); simpl; rewrite Hz; auto.
Qed.

Lemma keeps_store (y : string) (o : Obj) :
  (y =? x) = false -> keeps_unbound x (store y o).
Proof.
  intros Hy s Hs. unfold unbound, store in *. simpl.
  now apply lookup_assign_other.
Qed.

Lemma keeps_bind {A B} (m : M A) (k : A -> M B) :
  keeps_unbound x m ->
  (forall a, keeps_unbound x (k a)) ->
  keeps_unbound x (bind m k).
Proof.
  intros Hm Hk s Hs. unfold bind. specialize (Hm s Hs).
  destruct (m s) as [s' [a|e]]; simpl in *; [now apply Hk | exact Hm].
Qed.

Lemma raises_load : raises_while_unbound x (load x).
Proof.
  intros s Hs a. unfold load. unfold unbound in Hs. rewrite Hs.
  simpl. discriminate.
Qed.

Lemma raises_bind_left {A B} (m : M A) (k : A -> M B) :
  raises_while_unbound x m -> raises_while_unbound x (bind m k).
Proof.
  intros Hm s Hs b. unfold bind. specialize (Hm s Hs).
  destruct (m s) as [s' [a|e]]; simpl in *;
    [now destruct (Hm a) | discriminate].
Qed.

Lemma raises_bind_after {A B} (m : M A) (k : A -> M B) :
  keeps_unbound x m ->
  (forall a, raises_while_unbound x (k a)) ->
  raises_while_unbound x (bind m k).
Proof.
  intros Hm Hk s Hs b. unfold bind. specialize (Hm s Hs).
  destruct (m s) as [s' [a|e]]; simpl in *;
    [now apply Hk | discriminate].
Qed.
End Unbound.

Create HintDb stack_calls.
#[local] Hint Unfold
  load_construct load_integration as_construct as_integration
  new_construct find_child getattr construct
  codecommit_Repository iam_Role amplify_App bind_source_code_provider
  grant_pull add_to_principal_policy add_branch iam_Policy ddb_Table
  grant_write_data lambda_Function apigw_RestApi root add_resource
  add_method apigw_CfnAuthorizer add_property_override core_CfnOutput
  : stack_calls.

(** Follow a computation through its binds and branches. *)
Ltac keeps :=
  repeat match goal with
    | |- keeps_unbound _ (bind _ _) => apply keeps_bind; [|intros ?]
    | |- keeps_unbound _ (ret _) => apply keeps_ret
    | |- keeps_unbound _ (raise _) => apply keeps_raise
    | |- keeps_unbound _ (load _) => apply keeps_load
    | |- keeps_unbound _ (read_at _) => apply keeps_read_at
    | |- keeps_unbound _ (modify_at _ _) => apply keeps_modify_at
    | |- keeps_unbound _ (store _ _) => apply keeps_store; reflexivity
    | |- keeps_unbound _ (match ?c with _ => _ end) => destruct c
    | |- keeps_unbound _ _ => progress autounfold with stack_calls
    end.

(** Started with [request_unicorn_apigw] unbound, as in every call, the
    body has no normal return, whatever the stack it starts from and
    whatever the environment: no statement before the last binds that
    local, and the last reads it first. *)
Lemma body_never_returns (env : Environment) :
  raises_while_unbound "request_unicorn_apigw" (init_body env).
Proof.
  unfold init_body.
  repeat first
    [ solve [repeat apply raises_bind_left; apply raises_load]
    | apply raises_bind_after; [keeps | intros _] ].
Qed.

(** The constructor has no normal return, whatever the base initialiser
    does and whatever the environment. *)
Lemma never_returns (base : BaseInitialiser) (env : Environment)
    (scope : Construct) (construct_id : string) (u : unit) :
  snd (construct_with base env scope construct_id) <> Ok u.
Proof.
  unfold construct_with.
  destruct (base scope construct_id) as [scope' [stack|e]];
    [|simpl; discriminate].
  pose proof (body_never_returns env (mkFrame stack []) eq_refl u) as H.
  destruct (init_body env (mkFrame stack [])) as [fr r]. exact H.
Qed.

(** The body reads two things of the environment: whether the code
    directory of the function is found, and what the release of the library
    puts into a write grant. *)
Lemma init_body_agree (env1 env2 : Environment) :
  asset_found env1 "request_unicorn" = asset_found env2 "request_unicorn" ->
  grants_describe_table env1 = grants_describe_table env2 ->
  init_body env1 = init_body env2.
Proof.
  destruct env1 as [f1 d1], env2 as [f2 d2]. simpl. intros Hf ->.
  unfold init_body, lambda_Function, lambda_AssetCode, grant_write_data,
    write_grant_actions.
  cbn [asset_found grants_describe_table].
  rewrite Hf. reflexivity.
Qed.

(** From an empty stack and with the code directory in place, the body
    stops at the fourth output, whatever the identifier of the stack and
    whatever the release of the library. *)
Lemma init_body_stops_at_fourth_output (env : Environment) (i : string) :
  asset_found env "request_unicorn" = true ->
  snd (init_body env (mkFrame (Node i Stack []) []))
    = Raise fourth_output_error
  /\ node_id (graph (fst (init_body env (mkFrame (Node i Stack []) [])))) = i
  /\ outputs (template (graph (fst (init_body env
                                      (mkFrame (Node i Stack []) [])))))
     = [ ("Endpoint", api_url);
         ("amplify-repo-url", amplify_repo_clone_url);
         ("app-repo-url", app_repo_clone_url);
         ("amplify-default-domain", site_default_domain) ].
Proof.
  intros Hfound.
  rewrite (init_body_agree env
             (mkEnvironment (String.eqb "request_unicorn")
                (grants_describe_table env)))
    by (simpl; try rewrite Hfound; reflexivity).
  destruct (grants_describe_table env); vm_compute; repeat split.
Qed.

(** * The outputs and the end of the constructor *)

(** C1, evaluated on the entry point's call (a new application, identifier
    [wild-rydes-cdk]): the stack left in the application has the three
    outputs declared before the failing statement, the two clone URLs and
    the default domain, beside the endpoint output that the API brings
    along; there is no output named [request-unicorn-apigw], and the entry
    point stops with the unbound-local error before synthesis. *)
Lemma entry_point_declares_three_outputs :
  exists stack,
    constructed core_App "wild-rydes-cdk" = Some stack
    /\ outputs (template stack)
       = [ ("Endpoint", api_url);
           ("amplify-repo-url", amplify_repo_clone_url);
           ("app-repo-url", app_repo_clone_url);
           ("amplify-default-domain", site_default_domain) ]
    /\ ~ In "request-unicorn-apigw" (map fst (outputs (template stack)))
    /\ snd main = Raise (UnboundLocalError "request_unicorn_apigw").
Proof.
  exists (Node "wild-rydes-cdk" Stack declared).
  split; [reflexivity|]. split; [reflexivity|]. split; [|reflexivity].
  vm_compute. intros H.
  repeat (destruct H as [H|H]; [discriminate H|]). exact H.
Qed.

(** C2, evaluated on the entry point's call: the identifier does not collide
    with a child of the new application and every construct of the body is
    added without a collision, yet construction does not complete: it ends
    with an unbound-local error, which is not a collision. *)
Lemma construction_fails_without_collision :
  has_child core_App "wild-rydes-cdk" = false
  /\ snd (WildRydesCdkStack core_App "wild-rydes-cdk")
     = Raise (UnboundLocalError "request_unicorn_apigw")
  /\ (forall i, snd (WildRydesCdkStack core_App "wild-rydes-cdk")
                <> Raise (DuplicateChild i))
  /\ (forall u, snd (WildRydesCdkStack core_App "wild-rydes-cdk") <> Ok u)
  /\ (forall assembly, snd main <> Ok assembly).
Proof.
  repeat split; try reflexivity; intros x H; vm_compute in H; discriminate H.
Qed.

(** C3 as stated fails for a scope that already has a child with the
    identifier: the base initialiser raises, and the error is not the
    unbound-local error of the fourth output. *)
Lemma collision_raises_before_outputs :
  WildRydesCdkStack taken_scope "wild-rydes-cdk"
    = (taken_scope, Raise (DuplicateChild "wild-rydes-cdk"))
  /\ snd (WildRydesCdkStack taken_scope "wild-rydes-cdk")
     <> Raise (UnboundLocalError "request_unicorn_apigw").
Proof. split; [reflexivity | vm_compute; discriminate]. Qed.

(** C3, amended: for every scope and identifier the constructor never
    returns normally, whatever the base initialiser does.  If the base
    initialiser raises, the constructor raises the same error and the scope
    is as the base initialiser left it.  If it returns, having added a
    stack without children, and the code directory of the function is in place, the
    constructor raises the unbound-local error for [request_unicorn_apigw]
    while evaluating the value of the fourth output; the stack it leaves has
    the first three declared outputs beside the endpoint output of the API,
    and no fourth declared output. *)
Theorem fourth_output_reads_unbound_local
    (base : BaseInitialiser) (env : Environment)
    (scope : Construct) (construct_id : string) :
  (forall u, snd (construct_with base env scope construct_id) <> Ok u)
  /\ match base scope construct_id with
     | (scope', Raise e) =>
         construct_with base env scope construct_id = (scope', Raise e)
     | (scope', Ok stack) =>
         node_res stack = Stack ->
         node_children stack = [] ->
         asset_found env "request_unicorn" = true ->
         exists stack',
           construct_with base env scope construct_id
             = (add_child stack' scope',
                Raise (UnboundLocalError "request_unicorn_apigw"))
           /\ node_id stack' = node_id stack
           /\ map fst (outputs (template stack'))
              = ["Endpoint"; "amplify-repo-url"; "app-repo-url";
                 "amplify-default-domain"]
     end.
Proof.
  split; [intros u; apply never_returns|].
  unfold construct_with.
  destruct (base scope construct_id) as [scope' [stack|e]]; [|reflexivity].
  destruct stack as [i r ks]. simpl. intros -> -> Hfound.
  destruct (init_body_stops_at_fourth_output env i Hfound)
    as (Hr & Hi & Ho).
  destruct (init_body env (mkFrame (Node i Stack []) [])) as [fr res].
  simpl in *. exists (graph fr). rewrite Hr, Hi, Ho. repeat split.
Qed.

Lemma fourth_output_reads_unbound_local_witness :
  node_res (Node "wild-rydes-cdk" Stack []) = Stack
  /\ node_children (Node "wild-rydes-cdk" Stack []) = []
  /\ asset_found default_environment "request_unicorn" = true
  /\ exists stack',
       construct_with core_Stack_init default_environment core_App
         "wild-rydes-cdk"
         = (add_child stack' core_App,
            Raise (UnboundLocalError "request_unicorn_apigw"))
       /\ node_id stack' = "wild-rydes-cdk"
       /\ map fst (outputs (template stack'))
          = ["Endpoint"; "amplify-repo-url"; "app-repo-url";
             "amplify-default-domain"].
Proof.
  split; [reflexivity|]. split; [reflexivity|]. split; [reflexivity|].
  apply (proj2 (fourth_output_reads_unbound_local
                  core_Stack_init default_environment core_App
                  "wild-rydes-cdk"));
    reflexivity.
Defined.

(** * The declared resources *)

(** C4: in the stack the constructor leaves, the child [Resource] of the
    POST method of [/ride] has the property override [AuthorizationType]
    set to [COGNITO_USER_POOLS] and the override [AuthorizerId] set to a
    [Ref] to the logical id of the declared authorizer. *)
Theorem post_method_authorization_overridden
    (scope : Construct) (construct_id : string) :
  has_child scope construct_id = false ->
  exists stack post method_resource integ responses,
    constructed scope construct_id = Some stack
    /\ get_at (ride_path ++ ["POST"]) stack = Some post
    /\ node_res post = Method "POST" integ responses
    /\ try_find_child post "Resource" = Some method_resource
    /\ lookup_override "AuthorizationType" (node_res method_resource)
       = Some (PStr (Lit "COGNITO_USER_POOLS"))
    /\ lookup_override "AuthorizerId" (node_res method_resource)
       = Some (PDict [("Ref", PStr (Tok authorizer_path "logical_id"))])
    /\ authorizers (template stack) = [(authorizer_path, the_authorizer)].
Proof.
  intros Hfresh. left_stack Hfresh.
  do 4 eexists. repeat split; reflexivity.
Qed.

Lemma post_method_authorization_overridden_witness :
  has_child core_App "wild-rydes-cdk" = false
  /\ exists stack post method_resource integ responses,
    constructed core_App "wild-rydes-cdk" = Some stack
    /\ get_at (ride_path ++ ["POST"]) stack = Some post
    /\ node_res post = Method "POST" integ responses
    /\ try_find_child post "Resource" = Some method_resource
    /\ lookup_override "AuthorizationType" (node_res method_resource)
       = Some (PStr (Lit "COGNITO_USER_POOLS"))
    /\ lookup_override "AuthorizerId" (node_res method_resource)
       = Some (PDict [("Ref", PStr (Tok authorizer_path "logical_id"))])
    /\ authorizers (template stack) = [(authorizer_path, the_authorizer)].
Proof.
  split; [reflexivity|].
  apply (post_method_authorization_overridden core_App "wild-rydes-cdk").
  reflexivity.
Defined.

(** C5: the resource [ride] under the root of the API carries exactly two
    methods, in this order.  POST has the proxy integration with the
    function and declares the Access-Control-Allow-Origin response
    parameter; OPTIONS has a mock integration answering with the three
    static CORS headers and invokes no function. *)
Theorem ride_has_post_and_options
    (scope : Construct) (construct_id : string) :
  has_child scope construct_id = false ->
  exists stack api_root ride post options fn,
    constructed scope construct_id = Some stack
    /\ get_at ["wild-rydes-apigw"; "Default"] stack = Some api_root
    /\ node_res api_root = ApiResource "/"
    /\ try_find_child api_root "ride" = Some ride
    /\ node_res ride = ApiResource "ride"
    /\ methods_of ride = [post; options]
    /\ node_res post
       = Method "POST" post_integration
           [mkMethodResponse "200" [(ALLOW_ORIGIN, true)]]
    /\ integration_functions post_integration = [function_path]
    /\ get_at function_path stack = Some fn
    /\ node_res fn
       = Function "requestUnicorn.handler" NODEJS_12_X "request_unicorn"
           compute_role_path "request-unicorn-wild-rydes"
    /\ node_res options
       = Method "OPTIONS" options_integration
           [mkMethodResponse "200"
              [ (ALLOW_HEADERS, true); (ALLOW_METHODS, true);
                (ALLOW_ORIGIN, true) ]]
    /\ integration_functions options_integration = [].
Proof.
  intros Hfresh. left_stack Hfresh.
  do 5 eexists. repeat split; reflexivity.
Qed.

Lemma ride_has_post_and_options_witness :
  has_child core_App "wild-rydes-cdk" = false
  /\ exists stack api_root ride post options fn,
    constructed core_App "wild-rydes-cdk" = Some stack
    /\ get_at ["wild-rydes-apigw"; "Default"] stack = Some api_root
    /\ node_res api_root = ApiResource "/"
    /\ try_find_child api_root "ride" = Some ride
    /\ node_res ride = ApiResource "ride"
    /\ methods_of ride = [post; options]
    /\ node_res post
       = Method "POST" post_integration
           [mkMethodResponse "200" [(ALLOW_ORIGIN, true)]]
    /\ integration_functions post_integration = [function_path]
    /\ get_at function_path stack = Some fn
    /\ node_res fn
       = Function "requestUnicorn.handler" NODEJS_12_X "request_unicorn"
           compute_role_path "request-unicorn-wild-rydes"
    /\ node_res options
       = Method "OPTIONS" options_integration
           [mkMethodResponse "200"
              [ (ALLOW_HEADERS, true); (ALLOW_METHODS, true);
                (ALLOW_ORIGIN, true) ]]
    /\ integration_functions options_integration = [].
Proof.
  split; [reflexivity|].
  apply (ride_has_post_and_options core_App "wild-rydes-cdk").
  reflexivity.
Defined.

(** C6: the template of the stack has exactly one table; its partition key
    is [RideId] of string type and its removal policy is [DESTROY], so the
    table goes away with the stack. *)
Theorem one_table_keyed_by_ride_id
    (scope : Construct) (construct_id : string) :
  has_child scope construct_id = false ->
  exists stack,
    constructed scope construct_id = Some stack
    /\ tables (template stack)
       = [(table_path,
           Table "Rides" (mkAttribute "RideId" STRING) DESTROY)].
Proof.
  intros Hfresh. left_stack Hfresh. split; reflexivity.
Qed.

Lemma one_table_keyed_by_ride_id_witness :
  has_child core_App "wild-rydes-cdk" = false
  /\ exists stack,
    constructed core_App "wild-rydes-cdk" = Some stack
    /\ tables (template stack)
       = [(table_path,
           Table "Rides" (mkAttribute "RideId" STRING) DESTROY)].
Proof.
  split; [reflexivity|].
  apply (one_table_keyed_by_ride_id core_App "wild-rydes-cdk").
  reflexivity.
Defined.

(** C7: the stack has three roles, the two of the source and the logging
    role of the API, and three policies.  Over all policies there is exactly
    one grant on the table, also for a detector that errs on the side of
    finding one.  The grant is held by the role of the function (the role
    assumed by the compute service), it allows, and among its actions is the
    writing of an item; therefore no other role holds a grant on the
    table. *)
Theorem only_compute_role_writes_table
    (scope : Construct) (construct_id : string) :
  has_child scope construct_id = false ->
  exists stack role grant,
    constructed scope construct_id = Some stack
    /\ get_at compute_role_path stack = Some role
    /\ node_res role
       = Role "wild-rydes-lambda-role" "lambda.amazonaws.com"
           ["service-role/AWSLambdaBasicExecutionRole"]
    /\ map fst (roles_of (template stack))
       = [ ["amplify-wild-rydes-role"]; compute_role_path;
           ["wild-rydes-apigw"; "CloudWatchRole"] ]
    /\ map fst (policies (template stack))
       = [ (["amplify-wild-rydes-role"; "DefaultPolicy"],
            [["amplify-wild-rydes-role"]]);
           (["amplify-wild-rydes-policy"], [["amplify-wild-rydes-role"]]);
           (compute_role_path ++ ["DefaultPolicy"], [compute_role_path]) ]
    /\ table_grants table_path (template stack)
       = [(compute_role_path, grant)]
    /\ possible_table_grants table_path (template stack)
       = [(compute_role_path, grant)]
    /\ effect grant = ALLOW
    /\ writes grant = true
    /\ In (Tok table_path "table_arn") (resources grant)
    /\ (forall other st,
          In (other, st) (possible_table_grants table_path (template stack)) ->
          other = compute_role_path).
Proof.
  intros Hfresh. left_stack Hfresh. rewrite template_left.
  do 2 eexists. repeat split; try reflexivity; [left; reflexivity|].
  intros other st [H|[]]. now inversion H.
Qed.

Lemma only_compute_role_writes_table_witness :
  has_child core_App "wild-rydes-cdk" = false 
  /\
  exists stack role grant,
    constructed core_App "wild-rydes-cdk" = Some stack
    /\ get_at compute_role_path stack = Some role
    /\ node_res role
       = Role "wild-rydes-lambda-role" "lambda.amazonaws.com"
           ["service-role/AWSLambdaBasicExecutionRole"]
    /\ map fst (roles_of (template stack))
       = [ ["amplify-wild-rydes-role"]; compute_role_path;
           ["wild-rydes-apigw"; "CloudWatchRole"] ]
    /\ map fst (policies (template stack))
       = [ (["amplify-wild-rydes-role"; "DefaultPolicy"],
            [["amplify-wild-rydes-role"]]);
           (["amplify-wild-rydes-policy"], [["amplify-wild-rydes-role"]]);
           (compute_role_path ++ ["DefaultPolicy"], [compute_role_path]) ]
    /\ table_grants table_path (template stack)
       = [(compute_role_path, grant)]
    /\ possible_table_grants table_path (template stack)
       = [(compute_role_path, grant)]
    /\ effect grant = ALLOW
    /\ writes grant = true
    /\ In (Tok table_path "table_arn") (resources grant)
    /\ (forall other st,
          In (other, st) (possible_table_grants table_path (template stack)) ->
          other = compute_role_path).
Proof.
  split; [reflexivity|].
  apply (only_compute_role_writes_table core_App "wild-rydes-cdk").
  reflexivity.
Defined.

(** C9: the stack declares one authorizer.  Its type is
    [COGNITO_USER_POOLS]; its identity source is the string
    [method.request.header.name.Authorization], that is the header prefix,
    a segment [.name] and the header name; its validation expression is
    the word Bearer followed by a capture group; and its only provider
    reference is a literal ARN in which
    the placeholders for the account and the user pool are still present. *)
Theorem authorizer_as_declared
    (scope : Construct) (construct_id : string) :
  has_child scope construct_id = false ->
  exists stack arn,
    constructed scope construct_id = Some stack
    /\ authorizers (template stack)
       = [(authorizer_path,
           CfnAuthorizer (Tok ["wild-rydes-apigw"] "rest_api_id")
             "wild-rydes-apigw-authorizer"
             "COGNITO_USER_POOLS"
             "method.request.header.name.Authorization"
             "Bearer (.*)"
             [arn])]
    /\ "method.request.header.name.Authorization"
       = ("method.request.header" ++ ".name" ++ ".Authorization")%string
    /\ arn
       = "arn:aws:cognito-idp:us-east-1:<ACCOUNT_ID>:userpool/<USER_POOL_ID>"
    /\ is_substring "<ACCOUNT_ID>" arn = true
    /\ is_substring "<USER_POOL_ID>" arn = true.
Proof.
  intros Hfresh. left_stack Hfresh. exists PROVIDER_ARN.
  repeat split; reflexivity.
Qed.

Lemma authorizer_as_declared_witness :
  has_child core_App "wild-rydes-cdk" = false
  /\ exists stack arn,
    constructed core_App "wild-rydes-cdk" = Some stack
    /\ authorizers (template stack)
       = [(authorizer_path,
           CfnAuthorizer (Tok ["wild-rydes-apigw"] "rest_api_id")
             "wild-rydes-apigw-authorizer"
             "COGNITO_USER_POOLS"
             "method.request.header.name.Authorization"
             "Bearer (.*)"
             [arn])]
    /\ "method.request.header.name.Authorization"
       = ("method.request.header" ++ ".name" ++ ".Authorization")%string
    /\ arn
       = "arn:aws:cognito-idp:us-east-1:<ACCOUNT_ID>:userpool/<USER_POOL_ID>"
    /\ is_substring "<ACCOUNT_ID>" arn = true
    /\ is_substring "<USER_POOL_ID>" arn = true.
Proof.
  split; [reflexivity|].
  apply (authorizer_as_declared core_App "wild-rydes-cdk").
  reflexivity.
Defined.

(** * Independence from the identifier *)

Lemma has_child_after_run (scope : Construct) (id1 id2 : string) :
  has_child scope id1 = false ->
  has_child scope id2 = false ->
  id1 <> id2 ->
  has_child (fst (WildRydesCdkStack scope id1)) id2 = false.
Proof.
  intros H1 H2 Hne. rewrite (run_fresh _ _ H1).
  destruct scope as [j r ks]. unfold has_child in *. simpl in *.
  rewrite existsb_app, H2. simpl.
  apply String.eqb_neq in Hne. now rewrite Hne.
Qed.

(** C10: whatever the identifier, the physical names declared by the stack
    are the same constants: the two repositories, the two roles, the table
    and the function.  So when two stacks are built from this definition
    under distinct identifiers in one scope, both declare the same physical
    names. *)
Theorem physical_names_ignore_identifier :
  (forall scope construct_id,
     has_child scope construct_id = false ->
     exists stack,
       constructed scope construct_id = Some stack
       /\ physical_names (template stack) = FIXED_NAMES)
  /\ (forall scope id1 id2,
        has_child scope id1 = false ->
        has_child scope id2 = false ->
        id1 <> id2 ->
        exists scope' stack1 stack2,
          scope' = fst (WildRydesCdkStack
                          (fst (WildRydesCdkStack scope id1)) id2)
          /\ try_find_child scope' id1 = Some stack1
          /\ try_find_child scope' id2 = Some stack2
          /\ physical_names (template stack1) = FIXED_NAMES
          /\ physical_names (template stack2) = FIXED_NAMES).
Proof.
  split.
  - intros scope construct_id Hfresh. left_stack Hfresh.
    split; reflexivity.
  - intros scope id1 id2 H1 H2 Hne.
    pose proof (has_child_after_run _ _ _ H1 H2 Hne) as H2'.
    pose proof (constructed_fresh _ _ H1) as C1.
    pose proof (constructed_fresh _ _ H2') as C2.
    eexists. exists (Node id1 Stack declared), (Node id2 Stack declared).
    split; [reflexivity|]. split; [|split; [exact C2|split; reflexivity]].
    rewrite (run_fresh _ _ H2').
    unfold constructed in C1.
    destruct (fst (WildRydesCdkStack scope id1)) as [j r ks].
    unfold try_find_child in *. simpl in *.
    now apply find_app_left.
Qed.

Lemma physical_names_ignore_identifier_witness :
  (has_child core_App "wild-rydes-cdk" = false
   /\ exists stack,
        constructed core_App "wild-rydes-cdk" = Some stack
        /\ physical_names (template stack) = FIXED_NAMES)
  /\ (has_child core_App "wild-rydes-cdk" = false
      /\ has_child core_App "wild-rydes-cdk-2" = false
      /\ "wild-rydes-cdk" <> "wild-rydes-cdk-2"
      /\ exists scope' stack1 stack2,
          scope' = fst (WildRydesCdkStack
                          (fst (WildRydesCdkStack core_App "wild-rydes-cdk"))
                          "wild-rydes-cdk-2")
          /\ try_find_child scope' "wild-rydes-cdk" = Some stack1
          /\ try_find_child scope' "wild-rydes-cdk-2" = Some stack2
          /\ physical_names (template stack1) = FIXED_NAMES
          /\ physical_names (template stack2) = FIXED_NAMES).
Proof.
  destruct physical_names_ignore_identifier as [One Two].
  split.
  - split; [reflexivity|].
    apply (One core_App "wild-rydes-cdk"). reflexivity.
  - split; [reflexivity|]. split; [reflexivity|].
    split; [discriminate|].
    apply (Two core_App "wild-rydes-cdk" "wild-rydes-cdk-2");
      [reflexivity | reflexivity | discriminate].
Defined.

(** * What the outcome depends on *)






(** * Further properties of the constructor *)

(** The hosting app: the stack has one, built from the static-site
    repository (not from the project repository) and run under the role
    assumed by the hosting service; it has one branch, [master]. *)
Theorem hosting_app_wiring (scope : Construct) (construct_id : string) :
  has_child scope construct_id = false ->
  exists stack repo role,
    constructed scope construct_id = Some stack
    /\ amplify_apps (template stack)
       = [(["amplify-wild-rydes-site"],
           AmplifyApp ["amplify-wild-rydes-repo"]
             "Wild Rydes Amplify Static Site"
             ["amplify-wild-rydes-role"] "wild-rydes-site")]
    /\ get_at ["amplify-wild-rydes-repo"] stack = Some repo
    /\ node_res repo
       = Repository "amplify-wild-rydes"
           "Repo for the Wild Rydes static site for Amplify"
    /\ get_at ["amplify-wild-rydes-role"] stack = Some role
    /\ node_res role
       = Role "amplify-wild-rydes-role" "amplify.amazonaws.com" []
    /\ branches (template stack)
       = [(["amplify-wild-rydes-site"; "master"], Branch "master")].
Proof.
  intros Hfresh. left_stack Hfresh.
  do 2 eexists. repeat split; reflexivity.
Qed.

Lemma hosting_app_wiring_witness :
  has_child core_App "wild-rydes-cdk" = false
  /\ exists stack repo role,
    constructed core_App "wild-rydes-cdk" = Some stack
    /\ amplify_apps (template stack)
       = [(["amplify-wild-rydes-site"],
           AmplifyApp ["amplify-wild-rydes-repo"]
             "Wild Rydes Amplify Static Site"
             ["amplify-wild-rydes-role"] "wild-rydes-site")]
    /\ get_at ["amplify-wild-rydes-repo"] stack = Some repo
    /\ node_res repo
       = Repository "amplify-wild-rydes"
           "Repo for the Wild Rydes static site for Amplify"
    /\ get_at ["amplify-wild-rydes-role"] stack = Some role
    /\ node_res role
       = Role "amplify-wild-rydes-role" "amplify.amazonaws.com" []
    /\ branches (template stack)
       = [(["amplify-wild-rydes-site"; "master"], Branch "master")].
Proof.
  split; [reflexivity|].
  apply (hosting_app_wiring core_App "wild-rydes-cdk"). reflexivity.
Defined.

(** The policies: the stack has three, each attached to one role.  The
    hosting role has its default policy, made when the hosting app binds its
    repository, with the one statement that allows the pull of the
    static-site repository, and the hosting policy of the source with its
    two statements; the role of the function has its default policy with
    one statement.  No statement denies, and the pull is allowed on the
    static-site repository alone. *)
Theorem policies_attach_and_allow (scope : Construct) (construct_id : string) :
  has_child scope construct_id = false ->
  exists stack grant,
    constructed scope construct_id = Some stack
    /\ policies (template stack)
       = [ (["amplify-wild-rydes-role"; "DefaultPolicy"],
            [["amplify-wild-rydes-role"]],
            [ mkStatement ALLOW ["codecommit:GitPull"]
                [Tok ["amplify-wild-rydes-repo"] "repository_arn"] ]);
           (["amplify-wild-rydes-policy"],
            [["amplify-wild-rydes-role"]],
            [ mkStatement ALLOW ["codecommit:GitPull"]
                [Tok ["amplify-wild-rydes-repo"] "repository_arn"];
              mkStatement ALLOW
                ["amplify:GetApp"; "amplify:CreateBackendEnvironment";
                 "cloudformation:*"; "cognito:*"; "lambda:*"; "s3:*";
                 "iam:*"]
                [Lit "*"] ]);
           (compute_role_path ++ ["DefaultPolicy"],
            [compute_role_path],
            [grant]) ]
    /\ Forall (fun st => effect st = ALLOW) (all_statements (template stack))
    /\ (forall st,
          In st (all_statements (template stack)) ->
          In "codecommit:GitPull" (actions st) ->
          resources st = [Tok ["amplify-wild-rydes-repo"] "repository_arn"]).
Proof.
  intros Hfresh. left_stack Hfresh. rewrite template_left.
  eexists. split; [reflexivity|]. split; [reflexivity|].
  split; [repeat constructor|].
  intros st Hin Hact. vm_compute in Hin.
  repeat (destruct Hin as [<-|Hin]; [|]); try contradiction;
    try reflexivity; vm_compute in Hact;
    repeat (destruct Hact as [Hact|Hact]; [discriminate Hact|]);
    contradiction.
Qed.

Lemma policies_attach_and_allow_witness :
  has_child core_App "wild-rydes-cdk" = false 
  /\
  exists stack grant,
    constructed core_App "wild-rydes-cdk" = Some stack
    /\ policies (template stack)
       = [ (["amplify-wild-rydes-role"; "DefaultPolicy"],
            [["amplify-wild-rydes-role"]],
            [ mkStatement ALLOW ["codecommit:GitPull"]
                [Tok ["amplify-wild-rydes-repo"] "repository_arn"] ]);
           (["amplify-wild-rydes-policy"],
            [["amplify-wild-rydes-role"]],
            [ mkStatement ALLOW ["codecommit:GitPull"]
                [Tok ["amplify-wild-rydes-repo"] "repository_arn"];
              mkStatement ALLOW
                ["amplify:GetApp"; "amplify:CreateBackendEnvironment";
                 "cloudformation:*"; "cognito:*"; "lambda:*"; "s3:*";
                 "iam:*"]
                [Lit "*"] ]);
           (compute_role_path ++ ["DefaultPolicy"],
            [compute_role_path],
            [grant]) ]
    /\ Forall (fun st => effect st = ALLOW) (all_statements (template stack))
    /\ (forall st,
          In st (all_statements (template stack)) ->
          In "codecommit:GitPull" (actions st) ->
          resources st = [Tok ["amplify-wild-rydes-repo"] "repository_arn"]).
Proof.
  split; [reflexivity|].
  apply (policies_attach_and_allow core_App "wild-rydes-cdk"). reflexivity.
Defined.

(** The function can write the table: the stack has one function, it runs
    under the role of the function, and that role is the one holding the
    write grant on the table. *)
Theorem function_role_holds_write_grant
    (scope : Construct) (construct_id : string) :
  has_child scope construct_id = false ->
  exists stack,
    constructed scope construct_id = Some stack
    /\ functions (template stack)
       = [(function_path,
           Function "requestUnicorn.handler" NODEJS_12_X "request_unicorn"
             compute_role_path "request-unicorn-wild-rydes")]
    /\ forall p h rt code role name,
         In (p, Function h rt code role name) (template stack) ->
         exists st,
           In (role, st) (table_grants table_path (template stack))
           /\ writes st = true.
Proof.
  intros Hfresh. left_stack Hfresh. rewrite template_left.
  split; [reflexivity|]. split; [reflexivity|].
  intros p h rt code role name Hin. vm_compute in Hin.
  repeat (destruct Hin as [Hin|Hin]; [try discriminate Hin|]);
    [|contradiction].
  inversion Hin; subst.
  exists write_grant. split; [left|]; reflexivity.
Qed.

Lemma function_role_holds_write_grant_witness :
  has_child core_App "wild-rydes-cdk" = false
  /\ exists stack,
    constructed core_App "wild-rydes-cdk" = Some stack
    /\ functions (template stack)
       = [(function_path,
           Function "requestUnicorn.handler" NODEJS_12_X "request_unicorn"
             compute_role_path "request-unicorn-wild-rydes")]
    /\ forall p h rt code role name,
         In (p, Function h rt code role name) (template stack) ->
         exists st,
           In (role, st) (table_grants table_path (template stack))
           /\ writes st = true.
Proof.
  split; [reflexivity|].
  apply (function_role_holds_write_grant core_App "wild-rydes-cdk").
  reflexivity.
Defined.

(** Only the POST method is put behind the authorizer.  Of the two
    synthesized method resources, the one of POST carries exactly the two
    overrides, and the one of OPTIONS carries none, so the preflight request
    is answered without authorization. *)
Theorem overrides_on_post_only (scope : Construct) (construct_id : string) :
  has_child scope construct_id = false ->
  exists stack,
    constructed scope construct_id = Some stack
    /\ method_overrides (template stack)
       = [ (ride_path ++ ["POST"; "Resource"],
            [ ("AuthorizationType", PStr (Lit "COGNITO_USER_POOLS"));
              ("AuthorizerId",
               PDict [("Ref", PStr (Tok authorizer_path "logical_id"))]) ]);
           (ride_path ++ ["OPTIONS"; "Resource"], []) ].
Proof.
  intros Hfresh. left_stack Hfresh. split; reflexivity.
Qed.

Lemma overrides_on_post_only_witness :
  has_child core_App "wild-rydes-cdk" = false
  /\ exists stack,
    constructed core_App "wild-rydes-cdk" = Some stack
    /\ method_overrides (template stack)
       = [ (ride_path ++ ["POST"; "Resource"],
            [ ("AuthorizationType", PStr (Lit "COGNITO_USER_POOLS"));
              ("AuthorizerId",
               PDict [("Ref", PStr (Tok authorizer_path "logical_id"))]) ]);
           (ride_path ++ ["OPTIONS"; "Resource"], []) ].
Proof.
  split; [reflexivity|].
  apply (overrides_on_post_only core_App "wild-rydes-cdk"). reflexivity.
Defined.

(** Each method declares what its integration sets: for both methods of the
    stack, every response parameter set by an integration response is among
    the response parameters the method declares for the same status code. *)
Theorem integration_parameters_declared
    (scope : Construct) (construct_id : string) :
  has_child scope construct_id = false ->
  exists stack,
    constructed scope construct_id = Some stack
    /\ Forall (fun e => responses_declared (snd e)) (template stack)
    /\ length (filter (fun e => match snd e with
                                | Method _ _ _ => true
                                | _ => false
                                end) (template stack)) = 2.
Proof.
  intros Hfresh. left_stack Hfresh. rewrite template_left.
  split; [reflexivity|]. split; [|reflexivity].
  unfold declared_template.
  repeat (apply Forall_cons; [|]); try apply Forall_nil;
    try exact I; simpl;
    intros ir k Hir Hk;
    repeat (destruct Hir as [<-|Hir]; [|]); try contradiction;
    simpl in Hk;
    repeat (destruct Hk as [<-|Hk]; [simpl; tauto|]); contradiction.
Qed.

Lemma integration_parameters_declared_witness :
  has_child core_App "wild-rydes-cdk" = false
  /\ exists stack,
    constructed core_App "wild-rydes-cdk" = Some stack
    /\ Forall (fun e => responses_declared (snd e)) (template stack)
    /\ length (filter (fun e => match snd e with
                                | Method _ _ _ => true
                                | _ => false
                                end) (template stack)) = 2.
Proof.
  split; [reflexivity|].
  apply (integration_parameters_declared core_App "wild-rydes-cdk").
  reflexivity.
Defined.

(** The API: the stack has one REST API, named [WildRydes], with the
    regional endpoint type only.  Its resource tree is the root and the one
    resource [ride] below it. *)
Theorem api_is_regional_with_one_resource
    (scope : Construct) (construct_id : string) :
  has_child scope construct_id = false ->
  exists stack,
    constructed scope construct_id = Some stack
    /\ rest_apis (template stack)
       = [(["wild-rydes-apigw"], RestApi "WildRydes" [REGIONAL])]
    /\ api_resources (template stack)
       = [ (["wild-rydes-apigw"; "Default"], ApiResource "/");
           (ride_path, ApiResource "ride") ].
Proof.
  intros Hfresh. left_stack Hfresh. repeat split; reflexivity.
Qed.

Lemma api_is_regional_with_one_resource_witness :
  has_child core_App "wild-rydes-cdk" = false 
  /\
  exists stack,
    constructed core_App "wild-rydes-cdk" = Some stack
    /\ rest_apis (template stack)
       = [(["wild-rydes-apigw"], RestApi "WildRydes" [REGIONAL])]
    /\ api_resources (template stack)
       = [ (["wild-rydes-apigw"; "Default"], ApiResource "/");
           (ride_path, ApiResource "ride") ].
Proof.
  split; [reflexivity|].
  apply (api_is_regional_with_one_resource core_App "wild-rydes-cdk").
  reflexivity.
Defined.
